(** * Block header tracking of the EVM block plugin

    A shallow embedding of [cosmos/x/evm/plugins/block/header.go] and the
    properties of its header store: the two-slot key scheme, the genesis
    path, the height clamp, the historical read through the query context
    and the number check on the decoded header. *)

From Stdlib Require Import ZArith Lia.
From Stdlib.Strings Require Import Byte.
From stdpp Require Import base option list gmap strings.

Local Open Scope Z_scope.

(** ** Machine integers

    [uint64] and [int64] values are integers of [Z]; the two conversions of
    [readHeaderBytes] wrap around as Go's do. *)

Definition is_uint64 (n : Z) : Prop := 0 <= n < 2 ^ 64.
Definition is_int64 (n : Z) : Prop := - 2 ^ 63 <= n < 2 ^ 63.

(** [uint64(x)] for an [int64] (or any integer) [x]. *)
Definition to_uint64 (x : Z) : Z := x mod 2 ^ 64.

(** [int64(n)] for a [uint64] [n]. *)
Definition to_int64 (n : Z) : Z := (n + 2 ^ 63) mod 2 ^ 64 - 2 ^ 63.

(** ** Bytes as store keys *)

#[global] Instance byte_eq_decision : EqDecision byte := byte_eq_dec.
#[global] Program Instance byte_countable : Countable byte :=
  inj_countable Byte.to_N Byte.of_N _.
Next Obligation. exact Byte.of_to_N. Qed.

(** A [[]byte] value. *)
Abbreviation bytes := (list byte).

(** The key-value store of the module under [p.storekey]: [Get] of a key
    that holds nothing is [nil], here [None]. *)
Abbreviation KVStore := (gmap (list byte) (list byte)).

(** ** Errors

    A non-nil [error] value; a Go [error] that may be nil is an
    [option error]. *)
Inductive error : Type :=
| errors_New (msg : string)
| Wrapped (cause : error) (msg : string)
| Wrappedf (cause : error) (format : string) (args : list Z).

#[global] Instance error_eq_decision : EqDecision error.
Proof. solve_decision. Defined.

(** Modelled from the spec: [errorslib.Wrap] of [lib/errors], which is not
    among the sources at hand. A failure is surfaced "wrapped with context":
    the result is an error that carries the cause and the message. Every
    call of it in [header.go] sits under [if err != nil]. *)
Definition Wrap (err : error) (msg : string) : error := Wrapped err msg.

(** ** Headers

    [coretypes.Header] is the execution client's header. The plugin reads
    one field, [Number], a pointer to a [big.Int] that may be nil; all other fields
    travel as an opaque payload. *)
Record Header : Type := mkHeader {
  Number : option Z;
  payload : bytes
}.

#[global] Instance Header_eq_decision : EqDecision Header.
Proof. solve_decision. Defined.

(** [Uint64] of [big.Int]: the low 64 bits of the magnitude. *)
Definition Uint64 (x : Z) : Z := Z.abs x mod 2 ^ 64.

(** ** What the plugin imports

    The two key bytes of package [types], the header codec of [coretypes]
    and [errorslib.Wrapf] are declared outside the sources at hand; they
    are parameters of the development. Pointers and errors are options, as
    the Go signatures allow nil for both. [Wrapf] is kept abstract because
    its one call passes the nil error of a decode that succeeded, and what
    a wrapper returns for nil is the library's choice. *)
Class Imports : Type := {
  HeaderKey : byte;
  GenesisHeaderKey : byte;
  MarshalHeader : option Header -> bytes * option error;
  UnmarshalHeader : bytes -> option Header * option error;
  Wrapf : option error -> string -> list Z -> option error
}.

(** ** Effects

    A call either returns or panics, and leaves a trace of the store and
    query-context operations it performed, in order. *)
Inductive event : Type :=
| EvLiveGet (key : bytes)
| EvLiveSet (key value : bytes)
| EvQueryContext (height : Z) (prove : bool)
| EvViewGet (key : bytes).

#[global] Instance event_eq_decision : EqDecision event.
Proof. solve_decision. Defined.

Inductive outcome (A : Type) : Type :=
| Returned (a : A)
| Panicked.
Arguments Returned {A} a.
Arguments Panicked {A}.

Definition M (A : Type) : Type := list event * outcome A.

#[global] Instance M_ret : MRet M := fun A a => ([], Returned a).
#[global] Instance M_bind : MBind M := fun A B f m =>
  match m with
  | (t, Returned a) => let '(t', r) := f a in (t ++ t', r)
  | (t, Panicked) => (t, Panicked)
  end.

Definition emit (e : event) : M unit := ([e], Returned tt).
Definition panic {A : Type} : M A := ([], Panicked).

Definition trace {A : Type} (m : M A) : list event := fst m.
Definition result {A : Type} (m : M A) : outcome A := snd m.

(** ** The plugin *)

(** [sdk.Context], as far as the plugin uses it: the store under the
    plugin's key and the block height, an [int64]. *)
Record Context : Type := mkContext {
  store : KVStore;
  BlockHeight : Z
}.

(** The query context function: [(sdk.Context, error)] for a height and a
    proof flag. *)
Definition QueryContextFn : Type := Z -> bool -> Context * option error.

Record plugin : Type := mkPlugin {
  ctx : Context;
  getQueryContext : option QueryContextFn
}.

(** [ctx.KVStore(p.storekey).Get(key)] *)
Definition kvGet (c : Context) (ev : bytes -> event) (key : bytes) : M (option bytes) :=
  _ ← emit (ev key); mret (store c !! key).

(** [p.ctx.KVStore(p.storekey).Set(key, value)] *)
Definition kvSet (p : plugin) (key value : bytes) : M plugin :=
  _ ← emit (EvLiveSet key value);
  mret {| ctx := {| store := <[key := value]> (store (ctx p));
                    BlockHeight := BlockHeight (ctx p) |};
          getQueryContext := getQueryContext p |}.

(** [header.Number.Uint64()] on a header pointer: a nil header or a
    nil [Number] is a nil dereference. *)
Definition Number_Uint64 (header : option Header) : M Z :=
  match header with
  | Some h =>
      match Number h with
      | Some n => mret (Uint64 n)
      | None => panic
      end
  | None => panic
  end.

Section HeaderStore.
Context `{Imports}.

(** [SetQueryContextFn] (lines 38-40); the function value may be nil. *)
Definition SetQueryContextFn (p : plugin) (gqc : option QueryContextFn) : plugin :=
  {| ctx := ctx p; getQueryContext := gqc |}.

(** [getKeyForBlockNumber] (lines 80-86). *)
Definition getKeyForBlockNumber (number : Z) : bytes :=
  let key := HeaderKey in
  let key := if number =? 0 then GenesisHeaderKey else key in
  [key].

(** [readGenesisHeaderBytes] (lines 119-121). *)
Definition readGenesisHeaderBytes (p : plugin) : M (option bytes) :=
  kvGet (ctx p) EvLiveGet [GenesisHeaderKey].

(** [readHeaderBytes] (lines 90-116). The assignment to [number] at line
    106 changes the callee's copy only. *)
Definition readHeaderBytes (p : plugin) (number : Z) : M (option bytes * option error) :=
  if number =? 0 then
    bz ← readGenesisHeaderBytes p; mret (bz, None)
  else
    match getQueryContext p with
    | None => mret (None, Some (errors_New "GetHeader: getQueryContext is nil"))
    | Some gqc =>
        let number :=
          if number >? to_uint64 (BlockHeight (ctx p))
          then to_uint64 (BlockHeight (ctx p))
          else number in
        _ ← emit (EvQueryContext (to_int64 number) false);
        let '(qctx, err) := gqc (to_int64 number) false in
        match err with
        | Some e => mret (None, Some (Wrap e "GetHeader: failed to use query context"))
        | None => bz ← kvGet qctx EvViewGet [HeaderKey]; mret (bz, None)
        end
    end.

(** The height [readHeaderBytes] asks the query context for: the local
    [number] after the comparison with the block height. *)
Definition clamped (p : plugin) (number : Z) : Z :=
  if number >? to_uint64 (BlockHeight (ctx p))
  then to_uint64 (BlockHeight (ctx p))
  else number.

Definition mismatch_format : string :=
  "GetHeader: header number mismatch, got %d, expected %d".

(** [GetHeaderByNumber] (lines 45-66). In the mismatch branch [err] is
    the error of [UnmarshalHeader], nil there. *)
Definition GetHeaderByNumber (p : plugin) (number : Z) : M (option Header * option error) :=
  '(bz, err) ← readHeaderBytes p number;
  match err with
  | Some e => mret (None, Some e)
  | None =>
      match bz with
      | None => mret (None, Some (errors_New "GetHeader: polaris header not found in kvstore"))
      | Some bz =>
          let '(header, err) := UnmarshalHeader bz in
          match err with
          | Some e => mret (None, Some (Wrap e "GetHeader: failed to unmarshal"))
          | None =>
              n ← Number_Uint64 header;
              if negb (n =? number) then
                got ← Number_Uint64 header;
                mret (None, Wrapf err mismatch_format [got; number])
              else mret (header, None)
          end
      end
  end.

(** [StoreHeader] (lines 69-76). The key is computed, and the number
    dereferenced, before [Set] runs. *)
Definition StoreHeader (p : plugin) (header : option Header) : M (plugin * option error) :=
  let '(bz, err) := MarshalHeader header in
  match err with
  | Some e => mret (p, Some (Wrap e "SetHeader: failed to marshal header"))
  | None =>
      n ← Number_Uint64 header;
      p' ← kvSet p (getKeyForBlockNumber n) bz;
      mret (p', None)
  end.

End HeaderStore.

(** ** An instance to run the definitions on

    A one-byte wire format: the low byte of the number, then the payload.
    A nil [Number] is written like zero, as the RLP encoder of the
    execution client does; a nil header and a number that does not fit are
    refused. *)
Module Sample.

Definition byte_of (n : Z) : byte :=
  default x00 (Byte.of_N (Z.to_N n)).

Definition marshal (header : option Header) : bytes * option error :=
  match header with
  | None => ([], Some (errors_New "marshal: nil header"))
  | Some h =>
      match Number h with
      | None => (x00 :: payload h, None)
      | Some n =>
          if (0 <=? n) && (n <? 256)
          then (byte_of n :: payload h, None)
          else ([], Some (errors_New "marshal: number too large"))
      end
  end.

Definition unmarshal (bz : bytes) : option Header * option error :=
  match bz with
  | [] => (None, Some (errors_New "unmarshal: short input"))
  | b :: rest =>
      (Some {| Number := Some (Z.of_N (Byte.to_N b)); payload := rest |}, None)
  end.

(** A [Wrapf] that gives nil for a nil error. *)
Definition wrapf_nil (err : option error) (format : string) (args : list Z) : option error :=
  match err with
  | None => None
  | Some e => Some (Wrappedf e format args)
  end.

Definition imports (wrapf : option error -> string -> list Z -> option error) : Imports :=
  {| HeaderKey := x01;
     GenesisHeaderKey := x02;
     MarshalHeader := marshal;
     UnmarshalHeader := unmarshal;
     Wrapf := wrapf |}.

Definition header (n : Z) : Header := {| Number := Some n; payload := [xaa; xbb] |}.

(** The committed state at a height: the header of that height in the
    current-header slot. *)
Definition view (held : Z) (height : Z) : Context :=
  {| store := {[ [x01] := fst (marshal (Some (header held))) ]};
     BlockHeight := height |}.

Definition no_view : Context := {| store := ∅; BlockHeight := 0 |}.

(** Versions 1 to 5 exist; version [v] holds the header numbered
    [held v]. *)
Definition query (held : Z -> Z) : QueryContextFn := fun height prove =>
  if (1 <=? height) && (height <=? 5)
  then (view (held height) height, None)
  else (no_view, Some (errors_New "query: version does not exist")).

(** A plugin at block height [height] whose committed versions hold the
    headers [held]. *)
Definition node (held : Z -> Z) (height : Z) : plugin :=
  {| ctx := view (held height) height; getQueryContext := Some (query held) |}.

(** The same before any query context function is installed. *)
Definition fresh (height : Z) : plugin :=
  {| ctx := view height height; getQueryContext := None |}.

End Sample.

(** A second wire format, which accepts every number: it writes the low
    byte of [Uint64] of the number, then the payload. *)
Module SampleWide.

Definition marshal (header : option Header) : bytes * option error :=
  match header with
  | None => ([], Some (errors_New "marshal: nil header"))
  | Some h =>
      match Number h with
      | None => (x00 :: payload h, None)
      | Some n => (Sample.byte_of (Uint64 n mod 256) :: payload h, None)
      end
  end.

Definition imports : Imports :=
  {| HeaderKey := x01;
     GenesisHeaderKey := x02;
     MarshalHeader := marshal;
     UnmarshalHeader := Sample.unmarshal;
     Wrapf := Sample.wrapf_nil |}.

(** A plugin with an empty store and no query context function. *)
Definition empty (height : Z) : plugin :=
  {| ctx := {| store := ∅; BlockHeight := height |}; getQueryContext := None |}.

(** The sample node after the header numbered [n] has been stored on
    the plugin [p]. *)
Definition stored (p : plugin) (n : Z) : plugin :=
  {| ctx := {| store := <[ [x01] := fst (Sample.marshal (Some (Sample.header n))) ]>
                          (store (ctx p));
               BlockHeight := BlockHeight (ctx p) |};
     getQueryContext := getQueryContext p |}.

End SampleWide.

(** * Properties *)

(** ** Conversions *)

Lemma to_uint64_id (n : Z) : is_uint64 n -> to_uint64 n = n.
Proof. unfold is_uint64, to_uint64. intros Hn. apply Z.mod_small. lia. Qed.

Lemma to_uint64_range (x : Z) : is_uint64 (to_uint64 x).
Proof. unfold is_uint64, to_uint64. apply Z.mod_pos_bound. lia. Qed.

Lemma to_int64_small (n : Z) : 0 <= n < 2 ^ 63 -> to_int64 n = n.
Proof.
  intros Hn. unfold to_int64.
  rewrite Z.mod_small; lia.
Qed.

Lemma Uint64_id (n : Z) : is_uint64 n -> Uint64 n = n.
Proof.
  unfold is_uint64, Uint64. intros Hn.
  rewrite Z.abs_eq by lia. apply Z.mod_small. lia.
Qed.

Lemma Uint64_range (x : Z) : is_uint64 (Uint64 x).
Proof. unfold is_uint64, Uint64. apply Z.mod_pos_bound. lia. Qed.

(** ** The monad *)

Lemma bind_returned {A B : Type} (t : list event) (a : A) (f : A -> M B) :
  mbind f (t, Returned a) = (t ++ trace (f a), result (f a)).
Proof. unfold mbind, M_bind, trace, result. by destruct (f a). Qed.

Lemma bind_panicked {A B : Type} (t : list event) (f : A -> M B) :
  mbind f ((t, Panicked) : M A) = (t, Panicked).
Proof. reflexivity. Qed.

Section Reads.
Context `{Imports}.

(** ** The key scheme *)

Lemma getKeyForBlockNumber_zero : getKeyForBlockNumber 0 = [GenesisHeaderKey].
Proof. reflexivity. Qed.

Lemma getKeyForBlockNumber_nonzero (number : Z) :
  number <> 0 -> getKeyForBlockNumber number = [HeaderKey].
Proof.
  intros Hn. unfold getKeyForBlockNumber.
  destruct (Z.eqb_spec number 0); [lia | reflexivity].
Qed.

(** ** The three read paths of [readHeaderBytes] *)

Lemma readHeaderBytes_genesis (p : plugin) :
  readHeaderBytes p 0
  = ([EvLiveGet [GenesisHeaderKey]],
     Returned (store (ctx p) !! [GenesisHeaderKey], None)).
Proof. reflexivity. Qed.

Lemma readHeaderBytes_no_fn (p : plugin) (number : Z) :
  number <> 0 -> getQueryContext p = None ->
  readHeaderBytes p number
  = ([], Returned (None, Some (errors_New "GetHeader: getQueryContext is nil"))).
Proof.
  intros Hn Hfn. unfold readHeaderBytes.
  destruct (Z.eqb_spec number 0); [lia |].
  by rewrite Hfn.
Qed.

Lemma readHeaderBytes_refused (p : plugin) (number : Z) gqc qctx e :
  number <> 0 -> getQueryContext p = Some gqc ->
  gqc (to_int64 (clamped p number)) false = (qctx, Some e) ->
  readHeaderBytes p number
  = ([EvQueryContext (to_int64 (clamped p number)) false],
     Returned (None, Some (Wrap e "GetHeader: failed to use query context"))).
Proof.
  intros Hn Hfn Hq. unfold readHeaderBytes.
  destruct (Z.eqb_spec number 0); [lia |].
  rewrite Hfn. fold (clamped p number). by rewrite Hq.
Qed.

Lemma readHeaderBytes_view (p : plugin) (number : Z) gqc qctx :
  number <> 0 -> getQueryContext p = Some gqc ->
  gqc (to_int64 (clamped p number)) false = (qctx, None) ->
  readHeaderBytes p number
  = ([EvQueryContext (to_int64 (clamped p number)) false; EvViewGet [HeaderKey]],
     Returned (store qctx !! [HeaderKey], None)).
Proof.
  intros Hn Hfn Hq. unfold readHeaderBytes.
  destruct (Z.eqb_spec number 0); [lia |].
  rewrite Hfn. fold (clamped p number). by rewrite Hq.
Qed.

(** [readHeaderBytes] itself never panics. *)
Lemma readHeaderBytes_returns (p : plugin) (number : Z) :
  exists r, result (readHeaderBytes p number) = Returned r.
Proof.
  unfold readHeaderBytes.
  destruct (number =? 0); [by eexists |].
  destruct (getQueryContext p) as [gqc|]; [| by eexists].
  cbn. destruct (gqc _ false) as [qctx [e|]]; by eexists.
Qed.

(** The genesis read does not look at the query context function. *)
Lemma GetHeaderByNumber_genesis_any_fn (p : plugin) (gqc : option QueryContextFn) :
  GetHeaderByNumber (SetQueryContextFn p gqc) 0 = GetHeaderByNumber p 0.
Proof. reflexivity. Qed.

(** ** What [GetHeaderByNumber] makes of the bytes it read *)

Lemma GetHeaderByNumber_read_failed (p : plugin) (number : Z) t bz e :
  readHeaderBytes p number = (t, Returned (bz, Some e)) ->
  GetHeaderByNumber p number = (t, Returned (None, Some e)).
Proof.
  intros Hr. unfold GetHeaderByNumber. rewrite Hr. cbn.
  by rewrite app_nil_r.
Qed.

Lemma GetHeaderByNumber_absent (p : plugin) (number : Z) t :
  readHeaderBytes p number = (t, Returned (None, None)) ->
  GetHeaderByNumber p number
  = (t, Returned (None, Some (errors_New "GetHeader: polaris header not found in kvstore"))).
Proof.
  intros Hr. unfold GetHeaderByNumber. rewrite Hr. cbn.
  by rewrite app_nil_r.
Qed.

Lemma GetHeaderByNumber_undecodable (p : plugin) (number : Z) t bz hd e :
  readHeaderBytes p number = (t, Returned (Some bz, None)) ->
  UnmarshalHeader bz = (hd, Some e) ->
  GetHeaderByNumber p number
  = (t, Returned (None, Some (Wrap e "GetHeader: failed to unmarshal"))).
Proof.
  intros Hr Hd. unfold GetHeaderByNumber. rewrite Hr. cbn. rewrite Hd. cbn.
  by rewrite app_nil_r.
Qed.

Lemma GetHeaderByNumber_match (p : plugin) (number : Z) t bz h n :
  readHeaderBytes p number = (t, Returned (Some bz, None)) ->
  UnmarshalHeader bz = (Some h, None) ->
  Number h = Some n -> Uint64 n = number ->
  GetHeaderByNumber p number = (t, Returned (Some h, None)).
Proof.
  intros Hr Hd Hn Heq. unfold GetHeaderByNumber. rewrite Hr. cbn. rewrite Hd. cbn.
  rewrite Hn. cbn. rewrite Heq, Z.eqb_refl. cbn.
  by rewrite app_nil_r.
Qed.

(** The number check: the decoded number is compared with the argument
    of [GetHeaderByNumber], and the error that is wrapped is the nil
    error of the successful decode. *)
Lemma GetHeaderByNumber_mismatch (p : plugin) (number : Z) t bz h n :
  readHeaderBytes p number = (t, Returned (Some bz, None)) ->
  UnmarshalHeader bz = (Some h, None) ->
  Number h = Some n -> Uint64 n <> number ->
  GetHeaderByNumber p number
  = (t, Returned (None, Wrapf None mismatch_format [Uint64 n; number])).
Proof.
  intros Hr Hd Hn Hne. unfold GetHeaderByNumber. rewrite Hr. cbn. rewrite Hd. cbn.
  rewrite Hn. cbn.
  destruct (Z.eqb_spec (Uint64 n) number); [done |]. cbn.
  by rewrite app_nil_r.
Qed.

Lemma GetHeaderByNumber_nil_number (p : plugin) (number : Z) t bz hd :
  readHeaderBytes p number = (t, Returned (Some bz, None)) ->
  UnmarshalHeader bz = (hd, None) ->
  (hd = None \/ exists h, hd = Some h /\ Number h = None) ->
  result (GetHeaderByNumber p number) = Panicked.
Proof.
  intros Hr Hd Hnil. unfold GetHeaderByNumber. rewrite Hr. cbn. rewrite Hd. cbn.
  destruct Hnil as [-> | (h & -> & Hn)]; [done |].
  cbn. by rewrite Hn.
Qed.

End Reads.

Section Traces.
Context `{Imports}.

(** Everything after the read is pure: the trace of a lookup is the
    trace of its read. *)
Lemma GetHeaderByNumber_trace_read (p : plugin) (number : Z) :
  trace (GetHeaderByNumber p number) = trace (readHeaderBytes p number).
Proof.
  unfold GetHeaderByNumber.
  destruct (readHeaderBytes p number) as [t [[bz err]|]]; [| done].
  rewrite bind_returned. cbn.
  destruct err as [e|]; [by rewrite app_nil_r |].
  destruct bz as [bz|]; [| by rewrite app_nil_r].
  destruct (UnmarshalHeader bz) as [hd [e|]]; [by rewrite app_nil_r |].
  destruct hd as [h|]; [| by rewrite app_nil_r].
  cbn. destruct (Number h) as [n|]; [| by rewrite app_nil_r].
  cbn. destruct (Uint64 n =? number); cbn; by rewrite app_nil_r.
Qed.

Lemma readHeaderBytes_trace (p : plugin) (number : Z) gqc :
  number <> 0 -> getQueryContext p = Some gqc ->
  trace (readHeaderBytes p number)
  = EvQueryContext (to_int64 (clamped p number)) false
    :: match snd (gqc (to_int64 (clamped p number)) false) with
       | Some _ => []
       | None => [EvViewGet [HeaderKey]]
       end.
Proof.
  intros Hn Hfn.
  destruct (gqc (to_int64 (clamped p number)) false) as [qctx [e|]] eqn:Hq.
  - by erewrite readHeaderBytes_refused.
  - by erewrite readHeaderBytes_view.
Qed.

End Traces.

Section Writes.
Context `{Imports}.

(** The state a successful [StoreHeader] leaves. *)
Lemma StoreHeader_ok (p : plugin) (h : Header) (n : Z) (bz : bytes) :
  Number h = Some n ->
  MarshalHeader (Some h) = (bz, None) ->
  StoreHeader p (Some h)
  = ([EvLiveSet (getKeyForBlockNumber (Uint64 n)) bz],
     Returned ({| ctx := {| store := <[getKeyForBlockNumber (Uint64 n) := bz]> (store (ctx p));
                            BlockHeight := BlockHeight (ctx p) |};
                  getQueryContext := getQueryContext p |}, None)).
Proof.
  intros Hn Hm. unfold StoreHeader. rewrite Hm. cbn. by rewrite Hn.
Qed.

Lemma StoreHeader_encode_failed (p : plugin) (header : option Header) (bz : bytes) (e : error) :
  MarshalHeader header = (bz, Some e) ->
  StoreHeader p header
  = ([], Returned (p, Some (Wrap e "SetHeader: failed to marshal header"))).
Proof. intros Hm. unfold StoreHeader. by rewrite Hm. Qed.

Lemma StoreHeader_nil_number (p : plugin) (h : Header) (bz : bytes) :
  Number h = None ->
  MarshalHeader (Some h) = (bz, None) ->
  StoreHeader p (Some h) = ([], Panicked).
Proof. intros Hn Hm. unfold StoreHeader. rewrite Hm. cbn. by rewrite Hn. Qed.

End Writes.

(** * The claims *)

Section Claims.
  Context `{Imports}.

(** C7. The key scheme: [getKeyForBlockNumber] gives the genesis key
    exactly for height 0 and the header key for every other height, the
    two key bytes being distinct. It is a function of its argument alone. *)
Theorem C7_getKeyForBlockNumber_slots (number : Z) :
  HeaderKey <> GenesisHeaderKey ->
  (getKeyForBlockNumber number = [GenesisHeaderKey] <-> number = 0) /\
  (number <> 0 -> getKeyForBlockNumber number = [HeaderKey]).
Proof.
  intros Hkeys. split; [| apply getKeyForBlockNumber_nonzero].
  split.
  - intros Hk. destruct (decide (number = 0)) as [| Hn]; [done |].
    rewrite getKeyForBlockNumber_nonzero in Hk by done. congruence.
  - intros ->. apply getKeyForBlockNumber_zero.
Qed.

(** C3. Genesis isolation: [GetHeaderByNumber 0] performs one operation,
    the read of the genesis key in the live store; its outcome is the same
    whatever query context function is installed; and when the genesis key
    holds nothing it returns the not-found error. *)
Theorem C3_genesis_isolation (p : plugin) :
  trace (GetHeaderByNumber p 0) = [EvLiveGet [GenesisHeaderKey]] /\
  (forall gqc, GetHeaderByNumber (SetQueryContextFn p gqc) 0 = GetHeaderByNumber p 0) /\
  (store (ctx p) !! [GenesisHeaderKey] = None ->
   GetHeaderByNumber p 0
   = ([EvLiveGet [GenesisHeaderKey]],
      Returned (None, Some (errors_New "GetHeader: polaris header not found in kvstore")))).
Proof.
  split; [| split].
  - by rewrite GetHeaderByNumber_trace_read, readHeaderBytes_genesis.
  - intros gqc. apply GetHeaderByNumber_genesis_any_fn.
  - intros Hnone. apply GetHeaderByNumber_absent.
    by rewrite readHeaderBytes_genesis, Hnone.
Qed.

(** C10. With no query context function installed, a lookup of a height
    from 1 up returns the error saying so and touches no store, while the
    lookup of height 0 is the one it would be with any function installed
    and only reads the genesis key of the live store. *)
Theorem C10_query_context_never_set (p : plugin) (number : Z) :
  getQueryContext p = None ->
  (1 <= number ->
   GetHeaderByNumber p number
   = ([], Returned (None, Some (errors_New "GetHeader: getQueryContext is nil")))) /\
  (forall gqc, GetHeaderByNumber p 0 = GetHeaderByNumber (SetQueryContextFn p gqc) 0) /\
  trace (GetHeaderByNumber p 0) = [EvLiveGet [GenesisHeaderKey]].
Proof.
  intros Hfn. split; [| split].
  - intros Hn. eapply GetHeaderByNumber_read_failed.
    apply readHeaderBytes_no_fn; [lia | done].
  - intros gqc. symmetry. apply GetHeaderByNumber_genesis_any_fn.
  - by rewrite GetHeaderByNumber_trace_read, readHeaderBytes_genesis.
Qed.

(** C6. With a query context function installed, a lookup of a height from
    1 up asks it once, for the height after the clamp and with the proof
    flag false; when it answers with an error, the lookup returns that
    error wrapped, and reads nothing. *)
Theorem C6_query_context_request (p : plugin) (number : Z) (gqc : QueryContextFn) :
  1 <= number ->
  getQueryContext p = Some gqc ->
  (exists rest,
     trace (GetHeaderByNumber p number)
     = EvQueryContext (to_int64 (clamped p number)) false :: rest /\
     forall height prove, EvQueryContext height prove ∉ rest) /\
  (forall qctx e,
     gqc (to_int64 (clamped p number)) false = (qctx, Some e) ->
     GetHeaderByNumber p number
     = ([EvQueryContext (to_int64 (clamped p number)) false],
        Returned (None, Some (Wrap e "GetHeader: failed to use query context")))).
Proof.
  intros Hn Hfn. split.
  - rewrite GetHeaderByNumber_trace_read.
    rewrite (readHeaderBytes_trace p number gqc) by (done || lia).
    eexists. split; [done |].
    intros height prove.
    destruct (snd (gqc _ false)).
    + apply not_elem_of_nil.
    + rewrite list_elem_of_singleton. discriminate.
  - intros qctx e Hq. eapply GetHeaderByNumber_read_failed.
    apply (readHeaderBytes_refused p number gqc qctx e); [lia | done | done].
Qed.

(** C5 (as amended). [StoreHeader] of a header whose number is set and
    fits 64 bits: when the encoding succeeds, the one effect is the write
    of the encoded bytes under [getKeyForBlockNumber] of that number in
    the live store. For every header pointer, when the encoding fails the
    error comes back wrapped and the plugin, its store included, is as it
    was, with no operation performed. *)
Theorem C5_StoreHeader_write (p : plugin) (h : Header) (n : Z) :
  Number h = Some n ->
  is_uint64 n ->
  (forall bz,
     MarshalHeader (Some h) = (bz, None) ->
     StoreHeader p (Some h)
     = ([EvLiveSet (getKeyForBlockNumber n) bz],
        Returned ({| ctx := {| store := <[getKeyForBlockNumber n := bz]> (store (ctx p));
                               BlockHeight := BlockHeight (ctx p) |};
                     getQueryContext := getQueryContext p |}, None))) /\
  (forall header bz e,
     MarshalHeader header = (bz, Some e) ->
     StoreHeader p header
     = ([], Returned (p, Some (Wrap e "SetHeader: failed to marshal header")))).
Proof.
  intros Hn Hr. split.
  - intros bz Hm. rewrite (StoreHeader_ok p h n bz Hn Hm).
    by rewrite (Uint64_id n Hr).
  - intros header bz e Hm. by eapply StoreHeader_encode_failed.
Qed.

(** C4. Height fidelity. A header with number [n] was stored by
    [StoreHeader] on some plugin, which wrote the bytes [bz], and the
    codec reads that header back from them. The lookup is made on any
    plugin [q] whose block height is at least the number, whatever its
    live store holds under the header key by then. For a number from 1
    up, the query context of [q] for that height holds [bz] under the
    header key; for the number 0, the genesis key of [q] is as the store
    left it. Then the lookup of the number on [q] reads from the query
    context (from the live genesis key for 0) and returns that header,
    whose number is the height asked for. *)
Theorem C4_height_fidelity (p0 p1 q : plugin) (h : Header) (n : Z) (bz : bytes) :
  Number h = Some n ->
  StoreHeader p0 (Some h)
  = ([EvLiveSet (getKeyForBlockNumber (Uint64 n)) bz], Returned (p1, None)) ->
  UnmarshalHeader bz = (Some h, None) ->
  is_int64 (BlockHeight (ctx q)) ->
  Uint64 n <= BlockHeight (ctx q) ->
  (Uint64 n = 0 ->
   store (ctx q) !! [GenesisHeaderKey] = store (ctx p1) !! [GenesisHeaderKey]) ->
  (Uint64 n <> 0 ->
   exists gqc qctx,
     getQueryContext q = Some gqc /\
     gqc (to_int64 (Uint64 n)) false = (qctx, None) /\
     store qctx !! [HeaderKey] = Some bz) ->
  exists h',
    GetHeaderByNumber q (Uint64 n)
    = ((if Uint64 n =? 0 then [EvLiveGet [GenesisHeaderKey]]
        else [EvQueryContext (to_int64 (Uint64 n)) false; EvViewGet [HeaderKey]]),
       Returned (Some h', None)) /\
    h' = h /\
    Uint64 <$> Number h' = Some (Uint64 n).
Proof.
  intros Hn Hs Hu Hbh Hle Hgen Hview. unfold is_int64 in Hbh.
  exists h. split; [| by rewrite Hn].
  destruct (Z.eqb_spec (Uint64 n) 0) as [Hz | Hnz].
  - assert (Hp1 : store (ctx p1) !! [GenesisHeaderKey] = Some bz).
    { unfold StoreHeader in Hs.
      destruct (MarshalHeader (Some h)) as [bz0 [e|]]; [discriminate |].
      cbn in Hs. rewrite Hn in Hs. cbn in Hs.
      injection Hs as Hbz <-. subst bz0. cbn.
      by rewrite Hz, getKeyForBlockNumber_zero, lookup_insert_eq. }
    rewrite Hz.
    eapply GetHeaderByNumber_match; [| exact Hu | exact Hn | exact Hz].
    by rewrite readHeaderBytes_genesis, (Hgen Hz), Hp1.
  - destruct (Hview Hnz) as (gqc & qctx & Hfn & Hq & Hget).
    pose proof (Uint64_range n) as Hr. unfold is_uint64 in Hr.
    assert (Hcl : clamped q (Uint64 n) = Uint64 n).
    { unfold clamped.
      rewrite to_uint64_id by (unfold is_uint64; lia).
      destruct (Z.gtb_spec (Uint64 n) (BlockHeight (ctx q))); [lia | done]. }
    eapply GetHeaderByNumber_match; [| exact Hu | exact Hn | done].
    rewrite (readHeaderBytes_view q (Uint64 n) gqc qctx); [| done | done |].
    + by rewrite Hcl, Hget.
    + by rewrite Hcl.
Qed.

(** C9 (as amended). Neither operation panics as long as numbers are set.
    Provided the codec reports no error only together with a header whose
    number is set, [GetHeaderByNumber] returns for every height and every
    store, and what it returns is decided as follows. With no query
    context function, or an error from it, a height other than 0 gives
    that error and no header. Otherwise the bytes come from the live
    genesis key (height 0) or from the header key of the query context:
    absent bytes give the not-found error, bytes the codec rejects give
    its error wrapped, bytes that decode to a header with the number
    asked for give that header and no error, and bytes that decode to a
    header with another number give no header and what [Wrapf] makes of
    a nil error with the two numbers. [StoreHeader] returns for every
    header whose number is set: after one write and with no error when
    the encoding succeeds, and otherwise with the error wrapped, no
    operation and the plugin as it was. *)
Theorem C9_returns_when_numbers_are_set (p : plugin) (number : Z) :
  (forall bz hd, UnmarshalHeader bz = (hd, None) ->
                 exists h n, hd = Some h /\ Number h = Some n) ->
  let read := fun (t : list event) (ob : option bytes) =>
    (number = 0 /\ t = [EvLiveGet [GenesisHeaderKey]] /\
     store (ctx p) !! [GenesisHeaderKey] = ob) \/
    (number <> 0 /\
     exists gqc qctx,
       getQueryContext p = Some gqc /\
       gqc (to_int64 (clamped p number)) false = (qctx, None) /\
       t = [EvQueryContext (to_int64 (clamped p number)) false; EvViewGet [HeaderKey]] /\
       store qctx !! [HeaderKey] = ob) in
  (exists t hd err,
     GetHeaderByNumber p number = (t, Returned (hd, err)) /\
     ((number <> 0 /\ getQueryContext p = None /\ t = [] /\ hd = None /\
       err = Some (errors_New "GetHeader: getQueryContext is nil")) \/
      (number <> 0 /\
       exists gqc qctx e,
         getQueryContext p = Some gqc /\
         gqc (to_int64 (clamped p number)) false = (qctx, Some e) /\
         t = [EvQueryContext (to_int64 (clamped p number)) false] /\ hd = None /\
         err = Some (Wrap e "GetHeader: failed to use query context")) \/
      (read t None /\ hd = None /\
       err = Some (errors_New "GetHeader: polaris header not found in kvstore")) \/
      (exists bz hd' e,
         read t (Some bz) /\ UnmarshalHeader bz = (hd', Some e) /\ hd = None /\
         err = Some (Wrap e "GetHeader: failed to unmarshal")) \/
      (exists bz h n,
         read t (Some bz) /\ UnmarshalHeader bz = (Some h, None) /\
         Number h = Some n /\ Uint64 n = number /\ hd = Some h /\ err = None) \/
      (exists bz h n,
         read t (Some bz) /\ UnmarshalHeader bz = (Some h, None) /\
         Number h = Some n /\ Uint64 n <> number /\ hd = None /\
         err = Wrapf None mismatch_format [Uint64 n; number]))) /\
  (forall h n,
     Number h = Some n ->
     (exists bz,
        MarshalHeader (Some h) = (bz, None) /\
        StoreHeader p (Some h)
        = ([EvLiveSet (getKeyForBlockNumber (Uint64 n)) bz],
           Returned ({| ctx := {| store := <[getKeyForBlockNumber (Uint64 n) := bz]>
                                            (store (ctx p));
                                  BlockHeight := BlockHeight (ctx p) |};
                        getQueryContext := getQueryContext p |}, None))) \/
     (exists bz e,
        MarshalHeader (Some h) = (bz, Some e) /\
        StoreHeader p (Some h)
        = ([], Returned (p, Some (Wrap e "SetHeader: failed to marshal header"))))).
Proof.
  intros Hcodec read. split.
  - assert (Hread : exists t ob,
               readHeaderBytes p number = (t, Returned (ob, None)) /\ read t ob
               \/ number <> 0 /\ getQueryContext p = None
               \/ number <> 0 /\ exists gqc qctx e,
                    getQueryContext p = Some gqc /\
                    gqc (to_int64 (clamped p number)) false = (qctx, Some e)).
    { destruct (decide (number = 0)) as [-> | Hn].
      - eexists _, _. left. split; [apply readHeaderBytes_genesis |]. by left.
      - destruct (getQueryContext p) as [gqc|] eqn:Hfn; [| exists [], None; right; by left].
        destruct (gqc (to_int64 (clamped p number)) false) as [qctx [e|]] eqn:Hq.
        + exists [], None. right. right. split; [done |]. by exists gqc, qctx, e.
        + eexists _, _. left.
          split; [by apply (readHeaderBytes_view p number gqc qctx) |].
          right. split; [done |]. by exists gqc, qctx. }
    destruct Hread as (t & ob & [[Hr Hsrc] | [[Hn Hfn] | (Hn & gqc & qctx & e & Hfn & Hq)]]).
    + destruct ob as [bz|]; last first.
      { eexists t, None, _. split; [by apply GetHeaderByNumber_absent |].
        right. right. left. done. }
      destruct (UnmarshalHeader bz) as [hd [e|]] eqn:Hu.
      { eexists t, None, _. split; [by eapply GetHeaderByNumber_undecodable |].
        do 3 right. left. by exists bz, hd, e. }
      destruct (Hcodec bz hd Hu) as (h & n & -> & Hn).
      destruct (decide (Uint64 n = number)) as [Heq | Hne].
      * exists t, (Some h), None. split; [by eapply GetHeaderByNumber_match |].
        do 4 right. left. by exists bz, h, n.
      * eexists t, None, _. split; [by eapply GetHeaderByNumber_mismatch |].
        do 5 right. by exists bz, h, n.
    + eexists [], None, _.
      split; [eapply GetHeaderByNumber_read_failed; by apply readHeaderBytes_no_fn |].
      left. done.
    + eexists _, None, _.
      split; [eapply GetHeaderByNumber_read_failed;
              by apply (readHeaderBytes_refused p number gqc qctx e) |].
      right. left. split; [done |]. by exists gqc, qctx, e.
  - intros h n Hn.
    destruct (MarshalHeader (Some h)) as [bz [e|]] eqn:Hm.
    + right. exists bz, e. split; [done |]. by eapply StoreHeader_encode_failed.
    + left. exists bz. split; [done |]. by apply StoreHeader_ok.
Qed.

End Claims.

(** * The claims at the sample instance *)

Lemma C7_getKeyForBlockNumber_slots_witness :
  x01 <> x02 /\
  (getKeyForBlockNumber (H := Sample.imports Sample.wrapf_nil) 7 = [x02] <-> 7 = 0) /\
  (7 <> 0 -> getKeyForBlockNumber (H := Sample.imports Sample.wrapf_nil) 7 = [x01]).
Proof.
  split; [discriminate |].
  apply (C7_getKeyForBlockNumber_slots (H := Sample.imports Sample.wrapf_nil) 7).
  discriminate.
Defined.

Lemma C3_genesis_isolation_witness :
  GetHeaderByNumber (H := Sample.imports Sample.wrapf_nil) (Sample.node id 5) 0
  = ([EvLiveGet [x02]],
     Returned (None, Some (errors_New "GetHeader: polaris header not found in kvstore"))).
Proof.
  apply (proj2 (proj2 (C3_genesis_isolation (H := Sample.imports Sample.wrapf_nil)
                         (Sample.node id 5)))).
  vm_compute. reflexivity.
Defined.

Lemma C10_query_context_never_set_witness :
  GetHeaderByNumber (H := Sample.imports Sample.wrapf_nil) (Sample.fresh 5) 3
  = ([], Returned (None, Some (errors_New "GetHeader: getQueryContext is nil"))).
Proof.
  apply (proj1 (C10_query_context_never_set (H := Sample.imports Sample.wrapf_nil)
                  (Sample.fresh 5) 3 eq_refl)).
  lia.
Defined.

Lemma C6_query_context_request_witness :
  GetHeaderByNumber (H := Sample.imports Sample.wrapf_nil) (Sample.node id 8) 7
  = ([EvQueryContext 7 false],
     Returned (None, Some (Wrap (errors_New "query: version does not exist")
                             "GetHeader: failed to use query context"))).
Proof.
  apply (proj2 (C6_query_context_request (H := Sample.imports Sample.wrapf_nil)
                  (Sample.node id 8) 7 (Sample.query id) ltac:(lia) eq_refl)
           Sample.no_view (errors_New "query: version does not exist")).
  vm_compute. reflexivity.
Defined.

Lemma C5_StoreHeader_write_witness :
  trace (StoreHeader (H := Sample.imports Sample.wrapf_nil) (Sample.node id 5)
           (Some (Sample.header 6)))
  = [EvLiveSet [x01] [x06; xaa; xbb]].
Proof.
  rewrite (proj1 (C5_StoreHeader_write (H := Sample.imports Sample.wrapf_nil)
                    (Sample.node id 5) (Sample.header 6) 6 eq_refl
                    ltac:(unfold is_uint64; lia))
             [x06; xaa; xbb] eq_refl).
  reflexivity.
Defined.

Lemma C4_height_fidelity_witness :
  exists h',
    GetHeaderByNumber (H := Sample.imports Sample.wrapf_nil) (Sample.node id 5) (Uint64 3)
    = ((if Uint64 3 =? 0 then [EvLiveGet [x02]]
        else [EvQueryContext (to_int64 (Uint64 3)) false; EvViewGet [x01]]),
       Returned (Some h', None)) /\
    h' = Sample.header 3 /\
    Uint64 <$> Number h' = Some (Uint64 3).
Proof.
  apply (C4_height_fidelity (H := Sample.imports Sample.wrapf_nil)
           (Sample.node id 3) (SampleWide.stored (Sample.node id 3) 3) (Sample.node id 5)
           (Sample.header 3) 3 [x03; xaa; xbb]
           eq_refl eq_refl eq_refl).
  - vm_compute. split; [discriminate | reflexivity].
  - vm_compute. discriminate.
  - vm_compute. discriminate.
  - intros _. exists (Sample.query id), (Sample.view 3 3).
    split; [reflexivity |]. split; vm_compute; reflexivity.
Defined.

Lemma C9_returns_when_numbers_are_set_witness :
  (exists t hd err,
     GetHeaderByNumber (H := Sample.imports Sample.wrapf_nil)
       (Sample.node (fun _ => 4) 5) 5 = (t, Returned (hd, err)) /\
     t = [EvQueryContext 5 false; EvViewGet [x01]] /\ hd = None /\ err = None) /\
  (exists t p' err,
     StoreHeader (H := Sample.imports Sample.wrapf_nil) (Sample.node id 5)
       (Some (Sample.header 6)) = (t, Returned (p', err)) /\
     t = [EvLiveSet [x01] [x06; xaa; xbb]] /\ err = None).
Proof.
  assert (Hcodec : forall bz hd, Sample.unmarshal bz = (hd, None) ->
                                 exists h n, hd = Some h /\ Number h = Some n).
  { intros [| b rest] hd Hu; simpl in Hu; [discriminate |].
    injection Hu as <-. eexists _, _. split; reflexivity. }
  split.
  - destruct (C9_returns_when_numbers_are_set (H := Sample.imports Sample.wrapf_nil)
                (Sample.node (fun _ => 4) 5) 5 Hcodec)
      as [(t & hd & err & Hg & _) _].
    exists t, hd, err. split; [exact Hg |].
    vm_compute in Hg. injection Hg as <- <- <-. done.
  - destruct (proj2 (C9_returns_when_numbers_are_set (H := Sample.imports Sample.wrapf_nil)
                       (Sample.node id 5) 5 Hcodec) (Sample.header 6) 6 eq_refl)
      as [(bz & Hm & Hs) | (bz & e & Hm & _)]; [| discriminate].
    injection Hm as <-.
    eexists _, _, _. split; [exact Hs |]. done.
Defined.

(** * Where the code departs from the claims *)

(** C1. The number check compares with the height asked for, not with
    the height after the clamp. At block height 5 a lookup of height 9
    reads the version of height 5; when that version holds a header
    numbered 9, it is returned without error, although its number is not
    the clamped height 5. And at block height 5 a lookup of height 5 that
    finds a header numbered 4 returns what [Wrapf] makes of the nil decode
    error: with a [Wrapf] that keeps nil, no header and no error. *)
Theorem C1_number_check_ignores_clamp
  (wrapf : option error -> string -> list Z -> option error) :
  clamped (Sample.node (fun _ => 9) 5) 9 = 5 /\
  GetHeaderByNumber (H := Sample.imports wrapf) (Sample.node (fun _ => 9) 5) 9
  = ([EvQueryContext 5 false; EvViewGet [x01]],
     Returned (Some (Sample.header 9), None)) /\
  GetHeaderByNumber (H := Sample.imports wrapf) (Sample.node (fun _ => 4) 5) 5
  = ([EvQueryContext 5 false; EvViewGet [x01]],
     Returned (None, wrapf None mismatch_format [4; 5])) /\
  GetHeaderByNumber (H := Sample.imports Sample.wrapf_nil) (Sample.node (fun _ => 4) 5) 5
  = ([EvQueryContext 5 false; EvViewGet [x01]], Returned (None, None)).
Proof.
  split; [reflexivity |].
  split; [vm_compute; reflexivity |].
  split; vm_compute; reflexivity.
Qed.

(** C2. The clamp stays inside [readHeaderBytes]. At block height 5,
    with the header numbered 5 held by the version of height 5, the lookup
    of height 5 returns that header, and the lookup of height 9 reads the
    same version and then rejects the header because 5 is not 9: the two
    results differ, whatever [Wrapf] is. *)
Theorem C2_clamped_lookup_differs
  (wrapf : option error -> string -> list Z -> option error) :
  BlockHeight (ctx (Sample.node id 5)) = 5 /\
  GetHeaderByNumber (H := Sample.imports wrapf) (Sample.node id 5) 5
  = ([EvQueryContext 5 false; EvViewGet [x01]],
     Returned (Some (Sample.header 5), None)) /\
  GetHeaderByNumber (H := Sample.imports wrapf) (Sample.node id 5) 9
  = ([EvQueryContext 5 false; EvViewGet [x01]],
     Returned (None, wrapf None mismatch_format [5; 9])) /\
  GetHeaderByNumber (H := Sample.imports wrapf) (Sample.node id 5) 9
  <> GetHeaderByNumber (H := Sample.imports wrapf) (Sample.node id 5) 5.
Proof.
  assert (H5 : GetHeaderByNumber (H := Sample.imports wrapf) (Sample.node id 5) 5
               = ([EvQueryContext 5 false; EvViewGet [x01]],
                  Returned (Some (Sample.header 5), None)))
    by (vm_compute; reflexivity).
  assert (H9 : GetHeaderByNumber (H := Sample.imports wrapf) (Sample.node id 5) 9
               = ([EvQueryContext 5 false; EvViewGet [x01]],
                  Returned (None, wrapf None mismatch_format [5; 9])))
    by (vm_compute; reflexivity).
  split; [reflexivity |]. split; [exact H5 |]. split; [exact H9 |].
  rewrite H5, H9. discriminate.
Qed.

(** C5 (as stated). Not every header is written under the key of its
    number: a header numbered two to the 64 is written under the genesis
    key, which is not [getKeyForBlockNumber] of that number, and a header
    whose number is nil is not written at all once it is encoded. *)
Lemma C5_StoreHeader_number_outside_uint64 :
  StoreHeader (H := SampleWide.imports) (SampleWide.empty 5)
    (Some {| Number := Some (2 ^ 64); payload := [] |})
  = ([EvLiveSet [x02] [x00]],
     Returned ({| ctx := {| store := {[ [x02] := [x00] ]}; BlockHeight := 5 |};
                  getQueryContext := None |}, None)) /\
  getKeyForBlockNumber (H := SampleWide.imports) (2 ^ 64) = [x01] /\
  StoreHeader (H := SampleWide.imports) (SampleWide.empty 5)
    (Some {| Number := None; payload := [] |})
  = ([], Panicked).
Proof.
  split; [vm_compute; reflexivity |].
  split; vm_compute; reflexivity.
Qed.

(** C9 (as stated). [StoreHeader] of a header whose number is nil panics
    once the encoding has succeeded: the number is dereferenced to choose
    the key. *)
Lemma C9_StoreHeader_nil_number_panics :
  StoreHeader (H := Sample.imports Sample.wrapf_nil) (Sample.node id 5)
    (Some {| Number := None; payload := [] |})
  = ([], Panicked).
Proof. vm_compute. reflexivity. Qed.


(** * Further properties of the header store *)

Section MoreReads.
Context `{Imports}.

(** A lookup depends on the plugin only through what [readHeaderBytes]
    gives. *)
Lemma GetHeaderByNumber_ext (p1 p2 : plugin) (number : Z) :
  readHeaderBytes p1 number = readHeaderBytes p2 number ->
  GetHeaderByNumber p1 number = GetHeaderByNumber p2 number.
Proof. intros Hr. unfold GetHeaderByNumber. by rewrite Hr. Qed.

(** For a height other than 0 the read looks at the query context
    function and the block height, not at the live store. *)
Lemma readHeaderBytes_live_irrelevant (p1 p2 : plugin) (number : Z) :
  number <> 0 ->
  getQueryContext p1 = getQueryContext p2 ->
  BlockHeight (ctx p1) = BlockHeight (ctx p2) ->
  readHeaderBytes p1 number = readHeaderBytes p2 number.
Proof.
  intros Hn Hfn Hbh. unfold readHeaderBytes.
  destruct (Z.eqb_spec number 0); [lia |].
  by rewrite Hfn, Hbh.
Qed.

(** The operations of a lookup, in closed form. *)
Lemma GetHeaderByNumber_trace_eq (p : plugin) (number : Z) :
  trace (GetHeaderByNumber p number)
  = if number =? 0 then [EvLiveGet [GenesisHeaderKey]]
    else match getQueryContext p with
         | None => []
         | Some gqc =>
             EvQueryContext (to_int64 (clamped p number)) false
             :: match snd (gqc (to_int64 (clamped p number)) false) with
                | Some _ => []
                | None => [EvViewGet [HeaderKey]]
                end
         end.
Proof.
  rewrite GetHeaderByNumber_trace_read.
  destruct (Z.eqb_spec number 0) as [-> | Hn].
  - by rewrite readHeaderBytes_genesis.
  - destruct (getQueryContext p) as [gqc|] eqn:Hfn.
    + by apply readHeaderBytes_trace.
    + by rewrite readHeaderBytes_no_fn.
Qed.

(** With a block height that is a non-negative [int64], the height handed
    to the query context is the smaller of the number and the block
    height. *)
Lemma query_height_min (p : plugin) (number : Z) :
  is_uint64 number ->
  is_int64 (BlockHeight (ctx p)) ->
  0 <= BlockHeight (ctx p) ->
  to_int64 (clamped p number) = Z.min number (BlockHeight (ctx p)).
Proof.
  unfold is_uint64, is_int64. intros Hn Hbh Hpos. unfold clamped.
  rewrite to_uint64_id by (unfold is_uint64; lia).
  destruct (Z.gtb_spec number (BlockHeight (ctx p))).
  - rewrite to_int64_small by lia. lia.
  - rewrite to_int64_small by lia. lia.
Qed.

Lemma Uint64_multiple (n : Z) : n mod 2 ^ 64 = 0 -> Uint64 n = 0.
Proof.
  intros Hn. unfold Uint64.
  destruct (Z.abs_spec n) as [[_ ->] | [_ ->]]; [done |].
  by apply Z.mod_opp_l_z.
Qed.

(** What a [StoreHeader] that returns leaves behind. *)
Lemma StoreHeader_returned (p : plugin) (header : option Header) p' err :
  result (StoreHeader p header) = Returned (p', err) ->
  (exists e, err = Some e /\ p' = p /\ trace (StoreHeader p header) = []) \/
  (exists h n bz,
     header = Some h /\ Number h = Some n /\ MarshalHeader header = (bz, None) /\
     err = None /\
     trace (StoreHeader p header) = [EvLiveSet (getKeyForBlockNumber (Uint64 n)) bz] /\
     p' = {| ctx := {| store := <[getKeyForBlockNumber (Uint64 n) := bz]> (store (ctx p));
                       BlockHeight := BlockHeight (ctx p) |};
             getQueryContext := getQueryContext p |}).
Proof.
  unfold StoreHeader.
  destruct (MarshalHeader header) as [bz [e|]] eqn:Hm.
  - cbn. intros [= <- <-]. left. by exists (Wrap e "SetHeader: failed to marshal header").
  - destruct header as [h|]; [| discriminate].
    cbn. destruct (Number h) as [n|] eqn:Hn; [| discriminate].
    cbn. intros [= <- <-]. right. by exists h, n, bz.
Qed.

End MoreReads.

Section Coverage.
Context `{Imports}.

(** X1. A header that [GetHeaderByNumber] returns comes with a nil error
    and carries a number whose [Uint64] is the number asked for, whatever
    the codec, the store and [Wrapf] are. *)
Theorem X1_returned_header_has_requested_number
  (p : plugin) (number : Z) (t : list event) (h : Header) (err : option error) :
  GetHeaderByNumber p number = (t, Returned (Some h, err)) ->
  err = None /\ exists n, Number h = Some n /\ Uint64 n = number.
Proof.
  unfold GetHeaderByNumber.
  destruct (readHeaderBytes p number) as [t0 [[bz rerr]|]]; [| discriminate].
  rewrite bind_returned.
  destruct rerr as [e|]; [discriminate |].
  destruct bz as [bz|]; [| discriminate].
  destruct (UnmarshalHeader bz) as [hd [e|]]; [discriminate |].
  destruct hd as [h0|]; [| discriminate].
  cbn. destruct (Number h0) as [n|] eqn:Hn; [| discriminate].
  cbn. destruct (Z.eqb_spec (Uint64 n) number) as [Heq | Hne]; cbn.
  - intros [= _ -> <-]. split; [done |]. by exists n.
  - discriminate.
Qed.

(** X2. What a lookup never does: it writes nothing; for a height other
    than 0 it does not read the live store; the only key it reads from a
    query context is the header key; and it performs at most two
    operations. *)
Theorem X2_lookup_operations (p : plugin) (number : Z) :
  (forall e, e ∈ trace (GetHeaderByNumber p number) ->
             (number = 0 /\ e = EvLiveGet [GenesisHeaderKey]) \/
             (number <> 0 /\ e = EvQueryContext (to_int64 (clamped p number)) false) \/
             (number <> 0 /\ e = EvViewGet [HeaderKey])) /\
  (length (trace (GetHeaderByNumber p number)) <= 2)%nat.
Proof.
  rewrite GetHeaderByNumber_trace_eq.
  destruct (Z.eqb_spec number 0) as [-> | Hn].
  - split; [| cbn; lia].
    intros ev He. apply list_elem_of_singleton in He. by left.
  - destruct (getQueryContext p) as [gqc|].
    + destruct (snd (gqc _ false)) as [qe|].
      * split; [| cbn; lia].
        intros ev He. apply list_elem_of_singleton in He. right. by left.
      * split; [| cbn; lia].
        intros ev He. apply elem_of_cons in He as [-> | He]; [right; by left |].
        apply list_elem_of_singleton in He. right. by right.
    + split; [| cbn; lia].
      intros ev He. by apply not_elem_of_nil in He.
Qed.

(** X3. [StoreHeader] writes exactly when it succeeds: a call that returns
    no error has performed one [Set], and the resulting live store is the
    old one with that key set; a call that returns an error or panics has
    performed no operation, and an error leaves the plugin as it was. *)
Theorem X3_StoreHeader_writes_iff_succeeds (p : plugin) (header : option Header) :
  match result (StoreHeader p header) with
  | Returned (p', None) =>
      exists key bz,
        trace (StoreHeader p header) = [EvLiveSet key bz] /\
        store (ctx p') = <[key := bz]> (store (ctx p))
  | Returned (p', Some _) => trace (StoreHeader p header) = [] /\ p' = p
  | Panicked => trace (StoreHeader p header) = []
  end.
Proof.
  unfold StoreHeader.
  destruct (MarshalHeader header) as [bz [e|]]; [done |].
  destruct header as [h|]; [| done].
  cbn. destruct (Number h) as [n|]; [| done].
  cbn. by eexists _, _.
Qed.

(** X4. A successful [StoreHeader] changes one key of the live store and
    nothing else: every other key, the block height and the query context
    function are as before. With distinct key bytes, storing a header
    whose number is not 0 leaves the genesis key alone, and storing a
    header numbered 0 leaves the header key alone. *)
Theorem X4_StoreHeader_frame (p p' : plugin) (h : Header) (n : Z) :
  HeaderKey <> GenesisHeaderKey ->
  Number h = Some n ->
  result (StoreHeader p (Some h)) = Returned (p', None) ->
  (forall key, key <> getKeyForBlockNumber (Uint64 n) ->
               store (ctx p') !! key = store (ctx p) !! key) /\
  (Uint64 n <> 0 ->
   store (ctx p') !! [GenesisHeaderKey] = store (ctx p) !! [GenesisHeaderKey]) /\
  (Uint64 n = 0 ->
   store (ctx p') !! [HeaderKey] = store (ctx p) !! [HeaderKey]) /\
  BlockHeight (ctx p') = BlockHeight (ctx p) /\
  getQueryContext p' = getQueryContext p.
Proof.
  intros Hkeys Hn Hs.
  apply StoreHeader_returned in Hs as [(e & He & _) | (h0 & n0 & bz & Hh & Hn0 & _ & _ & _ & ->)];
    [discriminate |].
  injection Hh as <-. rewrite Hn in Hn0. injection Hn0 as <-. cbn.
  split; [| split; [| split]].
  - intros key Hkey. by rewrite lookup_insert_ne.
  - intros Hnz. rewrite lookup_insert_ne; [done |].
    rewrite getKeyForBlockNumber_nonzero by done. congruence.
  - intros Hz. rewrite lookup_insert_ne; [done |].
    rewrite Hz, getKeyForBlockNumber_zero. congruence.
  - done.
Qed.

(** X5. The live store keeps one header per slot: after two successful
    calls of [StoreHeader] for headers that are both numbered 0 or both
    numbered otherwise, the plugin is the one the second call alone would
    have left. The genesis slot is overwritten like the header slot. *)
Theorem X5_StoreHeader_last_write_wins (p p1 p2 : plugin) (h1 h2 : Header) (n1 n2 : Z) :
  Number h1 = Some n1 ->
  Number h2 = Some n2 ->
  (Uint64 n1 = 0 <-> Uint64 n2 = 0) ->
  result (StoreHeader p (Some h1)) = Returned (p1, None) ->
  result (StoreHeader p1 (Some h2)) = Returned (p2, None) ->
  result (StoreHeader p (Some h2)) = Returned (p2, None).
Proof.
  intros Hn1 Hn2 Hslot Hs1 Hs2.
  apply StoreHeader_returned in Hs1
    as [(e & He & _) | (h & n & bz1 & Hh & Hn & _ & _ & _ & ->)]; [discriminate |].
  injection Hh as <-. rewrite Hn1 in Hn. injection Hn as <-.
  apply StoreHeader_returned in Hs2
    as [(e & He & _) | (h & n & bz2 & Hh & Hn & Hm2 & _ & _ & ->)]; [discriminate |].
  injection Hh as <-. rewrite Hn2 in Hn. injection Hn as <-.
  rewrite (StoreHeader_ok p h2 n2 bz2 Hn2 Hm2). cbn.
  assert (Hkey : getKeyForBlockNumber (Uint64 n1) = getKeyForBlockNumber (Uint64 n2)).
  { destruct (decide (Uint64 n2 = 0)) as [Hz | Hnz].
    - by rewrite Hz, (proj2 Hslot Hz).
    - rewrite !getKeyForBlockNumber_nonzero; [done | done | tauto]. }
  by rewrite Hkey, insert_insert_eq.
Qed.

(** X6. The key is chosen from the low 64 bits of the number: a header
    whose number is a multiple of two to the 64, such as two to the 64
    itself, is written under the genesis key. *)
Theorem X6_StoreHeader_number_wraps (p : plugin) (h : Header) (n : Z) (bz : bytes) :
  Number h = Some n ->
  n mod 2 ^ 64 = 0 ->
  MarshalHeader (Some h) = (bz, None) ->
  trace (StoreHeader p (Some h)) = [EvLiveSet [GenesisHeaderKey] bz].
Proof.
  intros Hn Hmod Hm.
  rewrite (StoreHeader_ok p h n bz Hn Hm). cbn.
  by rewrite (Uint64_multiple n Hmod), getKeyForBlockNumber_zero.
Qed.

(** X7. With a query context function installed and a block height that
    is a non-negative [int64], a lookup of a height from 1 up first asks
    for the smaller of that height and the block height, a height between
    0 and the block height; at block height 0 this is version 0, read
    under the header key. *)
Theorem X7_query_height_is_min (p : plugin) (number : Z) (gqc : QueryContextFn) :
  is_uint64 number ->
  1 <= number ->
  is_int64 (BlockHeight (ctx p)) ->
  0 <= BlockHeight (ctx p) ->
  getQueryContext p = Some gqc ->
  (exists rest,
     trace (GetHeaderByNumber p number)
     = EvQueryContext (Z.min number (BlockHeight (ctx p))) false :: rest /\
     (rest = [] \/ rest = [EvViewGet [HeaderKey]])) /\
  0 <= Z.min number (BlockHeight (ctx p)) <= BlockHeight (ctx p).
Proof.
  intros Hu Hn Hbh Hpos Hfn. split; [| lia].
  rewrite GetHeaderByNumber_trace_eq, Hfn.
  destruct (Z.eqb_spec number 0); [lia |].
  rewrite (query_height_min p number Hu Hbh Hpos).
  eexists. split; [done |].
  destruct (snd (gqc _ false)); [by left | by right].
Qed.

(** X8. Bytes that the codec rejects give the codec's error, wrapped, and
    no header, on the genesis path and on the query-context path alike;
    the header value the codec returned beside the error is not looked
    at, so there is no panic. *)
Theorem X8_undecodable_bytes (p : plugin) (bz : bytes) (hd : option Header) (e : error) :
  UnmarshalHeader bz = (hd, Some e) ->
  (store (ctx p) !! [GenesisHeaderKey] = Some bz ->
   GetHeaderByNumber p 0
   = ([EvLiveGet [GenesisHeaderKey]],
      Returned (None, Some (Wrap e "GetHeader: failed to unmarshal")))) /\
  (forall number gqc qctx,
     number <> 0 ->
     getQueryContext p = Some gqc ->
     gqc (to_int64 (clamped p number)) false = (qctx, None) ->
     store qctx !! [HeaderKey] = Some bz ->
     GetHeaderByNumber p number
     = ([EvQueryContext (to_int64 (clamped p number)) false; EvViewGet [HeaderKey]],
        Returned (None, Some (Wrap e "GetHeader: failed to unmarshal")))).
Proof.
  intros Hu. split.
  - intros Hget. eapply GetHeaderByNumber_undecodable; [| exact Hu].
    by rewrite readHeaderBytes_genesis, Hget.
  - intros number gqc qctx Hn Hfn Hq Hget.
    eapply GetHeaderByNumber_undecodable; [| exact Hu].
    by rewrite (readHeaderBytes_view p number gqc qctx Hn Hfn Hq), Hget.
Qed.

(** X9. A query context that answers but holds nothing under the header
    key gives the not-found error, after the two operations of the read. *)
Theorem X9_version_without_header
  (p : plugin) (number : Z) (gqc : QueryContextFn) (qctx : Context) :
  number <> 0 ->
  getQueryContext p = Some gqc ->
  gqc (to_int64 (clamped p number)) false = (qctx, None) ->
  store qctx !! [HeaderKey] = None ->
  GetHeaderByNumber p number
  = ([EvQueryContext (to_int64 (clamped p number)) false; EvViewGet [HeaderKey]],
     Returned (None, Some (errors_New "GetHeader: polaris header not found in kvstore"))).
Proof.
  intros Hn Hfn Hq Hget. apply GetHeaderByNumber_absent.
  by rewrite (readHeaderBytes_view p number gqc qctx Hn Hfn Hq), Hget.
Qed.

(** X10. [StoreHeader] panics exactly when the encoding reports no error
    and the header, or its number, is nil. A nil header that the codec
    refuses comes back as an error. *)
Theorem X10_StoreHeader_panics_iff (p : plugin) (header : option Header) :
  result (StoreHeader p header) = Panicked <->
  snd (MarshalHeader header) = None /\
  (header = None \/ exists h, header = Some h /\ Number h = None).
Proof.
  unfold StoreHeader.
  destruct (MarshalHeader header) as [bz [e|]]; cbn.
  - split; [discriminate | by intros [? _]].
  - destruct header as [h|]; cbn.
    + destruct (Number h) as [n|] eqn:Hn; cbn.
      * split; [discriminate |].
        intros [_ [? | (h' & [= <-] & Hn')]]; congruence.
      * split; [| done]. intros _. split; [done |]. right. by exists h.
    + split; [| done]. intros _. split; [done |]. by left.
Qed.

(** X11. [GetHeaderByNumber] panics exactly when bytes were read, the
    codec reports no error for them, and the header it gives, or its
    number, is nil. *)
Theorem X11_GetHeaderByNumber_panics_iff (p : plugin) (number : Z) :
  result (GetHeaderByNumber p number) = Panicked <->
  exists t bz hd,
    readHeaderBytes p number = (t, Returned (Some bz, None)) /\
    UnmarshalHeader bz = (hd, None) /\
    (hd = None \/ exists h, hd = Some h /\ Number h = None).
Proof.
  split.
  - unfold GetHeaderByNumber.
    destruct (readHeaderBytes_returns p number) as [[bz rerr] Hr].
    destruct (readHeaderBytes p number) as [t r]. cbn in Hr. subst r.
    rewrite bind_returned.
    destruct rerr as [e|]; [discriminate |].
    destruct bz as [bz|]; [| discriminate].
    destruct (UnmarshalHeader bz) as [hd [e|]] eqn:Hu; [discriminate |].
    intros Hp. exists t, bz, hd. split; [done |]. split; [done |].
    destruct hd as [h|]; [| by left].
    right. exists h. split; [done |].
    cbn in Hp. destruct (Number h) as [n|]; [| done].
    cbn in Hp. by destruct (Uint64 n =? number).
  - intros (t & bz & hd & Hr & Hu & Hnil).
    by eapply GetHeaderByNumber_nil_number.
Qed.

(** X12. For a fixed query context function, [StoreHeader] does not change
    the answer to a lookup of any height other than 0: such a lookup does
    not depend on the live store. *)
Theorem X12_StoreHeader_keeps_historical_lookups
  (p p' : plugin) (header : option Header) (err : option error) (number : Z) :
  number <> 0 ->
  result (StoreHeader p header) = Returned (p', err) ->
  GetHeaderByNumber p' number = GetHeaderByNumber p number.
Proof.
  intros Hn Hs.
  apply StoreHeader_returned in Hs
    as [(e & _ & -> & _) | (h & n & bz & _ & _ & _ & _ & _ & ->)]; [done |].
  apply GetHeaderByNumber_ext. by apply readHeaderBytes_live_irrelevant.
Qed.

(** X13. With distinct key bytes, storing a header whose number is not 0
    does not change the answer to the lookup of height 0. *)
Theorem X13_StoreHeader_keeps_genesis_lookup
  (p p' : plugin) (h : Header) (n : Z) (err : option error) :
  HeaderKey <> GenesisHeaderKey ->
  Number h = Some n ->
  Uint64 n <> 0 ->
  result (StoreHeader p (Some h)) = Returned (p', err) ->
  GetHeaderByNumber p' 0 = GetHeaderByNumber p 0.
Proof.
  intros Hkeys Hn Hnz Hs.
  apply StoreHeader_returned in Hs
    as [(e & _ & -> & _) | (h0 & n0 & bz & Hh & Hn0 & _ & _ & _ & ->)]; [done |].
  injection Hh as <-. rewrite Hn in Hn0. injection Hn0 as <-.
  apply GetHeaderByNumber_ext.
  rewrite !readHeaderBytes_genesis. cbn.
  rewrite lookup_insert_ne; [done |].
  rewrite getKeyForBlockNumber_nonzero by done. congruence.
Qed.

End Coverage.

(** * The further properties at the sample instances *)

Lemma X1_returned_header_has_requested_number_witness :
  (None : option error) = None /\
  exists n, Number (Sample.header 5) = Some n /\ Uint64 n = 5.
Proof.
  apply (X1_returned_header_has_requested_number (H := Sample.imports Sample.wrapf_nil)
           (Sample.node id 5) 5 [EvQueryContext 5 false; EvViewGet [x01]]
           (Sample.header 5) None).
  vm_compute. reflexivity.
Defined.

Lemma X4_StoreHeader_frame_witness :
  store (ctx (SampleWide.stored (Sample.node id 5) 6)) !! [x02]
  = store (ctx (Sample.node id 5)) !! [x02] /\
  BlockHeight (ctx (SampleWide.stored (Sample.node id 5) 6)) = 5.
Proof.
  pose proof (X4_StoreHeader_frame (H := Sample.imports Sample.wrapf_nil)
                (Sample.node id 5) (SampleWide.stored (Sample.node id 5) 6)
                (Sample.header 6) 6
                ltac:(discriminate) eq_refl eq_refl) as (_ & Hgen & _ & Hbh & _).
  split; [| exact Hbh].
  apply Hgen. vm_compute. discriminate.
Defined.

Lemma X5_StoreHeader_last_write_wins_witness :
  result (StoreHeader (H := Sample.imports Sample.wrapf_nil) (Sample.node id 5)
            (Some (Sample.header 7)))
  = Returned (SampleWide.stored (SampleWide.stored (Sample.node id 5) 6) 7, None).
Proof.
  apply (X5_StoreHeader_last_write_wins (H := Sample.imports Sample.wrapf_nil)
           (Sample.node id 5) (SampleWide.stored (Sample.node id 5) 6)
           (SampleWide.stored (SampleWide.stored (Sample.node id 5) 6) 7)
           (Sample.header 6) (Sample.header 7) 6 7
           eq_refl eq_refl).
  - vm_compute. split; discriminate.
  - reflexivity.
  - reflexivity.
Defined.

Lemma X6_StoreHeader_number_wraps_witness :
  trace (StoreHeader (H := SampleWide.imports) (SampleWide.empty 5)
           (Some {| Number := Some (2 ^ 64); payload := [] |}))
  = [EvLiveSet [x02] [x00]].
Proof.
  apply (X6_StoreHeader_number_wraps (H := SampleWide.imports) (SampleWide.empty 5)
           {| Number := Some (2 ^ 64); payload := [] |} (2 ^ 64) [x00]
           eq_refl eq_refl eq_refl).
Defined.

Lemma X7_query_height_is_min_witness :
  exists rest,
    trace (GetHeaderByNumber (H := Sample.imports Sample.wrapf_nil) (Sample.node id 5) 9)
    = EvQueryContext (Z.min 9 5) false :: rest /\
    (rest = [] \/ rest = [EvViewGet [x01]]).
Proof.
  apply (proj1 (X7_query_height_is_min (H := Sample.imports Sample.wrapf_nil)
                  (Sample.node id 5) 9 (Sample.query id)
                  ltac:(unfold is_uint64; lia) ltac:(lia)
                  ltac:(unfold is_int64; cbn; lia) ltac:(cbn; lia) eq_refl)).
Defined.

Lemma X8_undecodable_bytes_witness :
  GetHeaderByNumber (H := Sample.imports Sample.wrapf_nil)
    {| ctx := {| store := {[ [x02] := [] ]}; BlockHeight := 5 |};
       getQueryContext := None |} 0
  = ([EvLiveGet [x02]],
     Returned (None, Some (Wrap (errors_New "unmarshal: short input")
                             "GetHeader: failed to unmarshal"))).
Proof.
  apply (proj1 (X8_undecodable_bytes (H := Sample.imports Sample.wrapf_nil)
                  {| ctx := {| store := {[ [x02] := [] ]}; BlockHeight := 5 |};
                     getQueryContext := None |}
                  [] None (errors_New "unmarshal: short input") eq_refl)).
  vm_compute. reflexivity.
Defined.

Lemma X9_version_without_header_witness :
  GetHeaderByNumber (H := Sample.imports Sample.wrapf_nil)
    {| ctx := Sample.view 5 5;
       getQueryContext := Some (fun _ _ => (Sample.no_view, None)) |} 3
  = ([EvQueryContext 3 false; EvViewGet [x01]],
     Returned (None, Some (errors_New "GetHeader: polaris header not found in kvstore"))).
Proof.
  apply (X9_version_without_header (H := Sample.imports Sample.wrapf_nil)
           {| ctx := Sample.view 5 5;
              getQueryContext := Some (fun _ _ => (Sample.no_view, None)) |}
           3 (fun _ _ => (Sample.no_view, None)) Sample.no_view
           ltac:(discriminate) eq_refl eq_refl).
  vm_compute. reflexivity.
Defined.

Lemma X12_StoreHeader_keeps_historical_lookups_witness :
  GetHeaderByNumber (H := Sample.imports Sample.wrapf_nil)
    (SampleWide.stored (Sample.node id 5) 6) 5
  = GetHeaderByNumber (H := Sample.imports Sample.wrapf_nil) (Sample.node id 5) 5.
Proof.
  apply (X12_StoreHeader_keeps_historical_lookups (H := Sample.imports Sample.wrapf_nil)
           (Sample.node id 5) (SampleWide.stored (Sample.node id 5) 6)
           (Some (Sample.header 6)) None 5
           ltac:(discriminate) eq_refl).
Defined.

Lemma X13_StoreHeader_keeps_genesis_lookup_witness :
  GetHeaderByNumber (H := Sample.imports Sample.wrapf_nil)
    (SampleWide.stored (Sample.node id 5) 6) 0
  = GetHeaderByNumber (H := Sample.imports Sample.wrapf_nil) (Sample.node id 5) 0.
Proof.
  apply (X13_StoreHeader_keeps_genesis_lookup (H := Sample.imports Sample.wrapf_nil)
           (Sample.node id 5) (SampleWide.stored (Sample.node id 5) 6)
           (Sample.header 6) 6 None
           ltac:(discriminate) eq_refl ltac:(vm_compute; discriminate) eq_refl).
Defined.
